(** * EPA Envirofacts pull: the query builder and the merge sequence

    A shallow embedding of [EPA_API_pull_ghg_data.py]: the class [EPAQuery]
    with its method [construct_query_URL], and the script's [main], which
    fetches five tables, merges them with [pd.merge] and prints the head of
    a column subset. *)

From Stdlib Require Import Permutation QArith Qcanon.
From stdpp Require Import gmap strings list fin_maps.

Local Open Scope string_scope.
Local Open Scope list_scope.

(** ** Strings

    Python's [+] on [str] is [String.append], written [+:+]. *)

(** [str_cat l]: the strings of [l] one after the other. *)
Definition str_cat (l : list string) : string := foldr String.append "" l.

(** [ends_with suf s]: [s] is some string followed by [suf]. *)
Definition ends_with (suf s : string) : Prop := ∃ p, s = p +:+ suf.

(** ** class EPAQuery *)

Record EPAQuery : Type := mkEPAQuery {
  base_url : string;
  table_name : string;
  desired_output_format : string
}.

(** [EPAQuery.__init__(self, table_name)] *)
Definition EPAQuery_init (table_name : string) : EPAQuery :=
  {| base_url := "https://data.epa.gov/efservice/";
     table_name := table_name;
     desired_output_format := "CSV" |}.

(** [EPAQuery.construct_query_URL]. An argument left at its default [None]
    is [None] here; the local [query] is rebound by each [if], and Python's
    [a+b+c] associates to the left. *)
Definition construct_query_URL (self : EPAQuery)
    (desired_state desired_county desired_area_code desired_year
       rows_to_include : option string) : string :=
  let query_base := base_url self in
  let query := (query_base +:+ table_name self) +:+ "/" in
  let query :=
    match desired_state with
    | Some desired_state => ((query +:+ "state_abbr/") +:+ desired_state) +:+ "/"
    | None => query
    end in
  let query :=
    match desired_county with
    | Some desired_county => ((query +:+ "county_name/") +:+ desired_county) +:+ "/"
    | None => query
    end in
  let query :=
    match desired_area_code with
    | Some desired_area_code => ((query +:+ "zip_code/") +:+ desired_area_code) +:+ "/"
    | None => query
    end in
  let query :=
    match desired_year with
    | Some desired_year => ((query +:+ "reporting_year/") +:+ desired_year) +:+ "/"
    | None => query
    end in
  let query := query +:+ desired_output_format self in
  let query :=
    match rows_to_include with
    | Some rows_to_include => (query +:+ "/rows/") +:+ rows_to_include
    | None => query
    end in
  query.

(** ** The path template, in the specification's words

    A [QuerySpec] holds the table name and the optional filters; the four
    filters have a fixed order, each given one contributes the segment
    [<label><value>/], and the row range goes after the format token. *)

Inductive filter_kind : Type := FState | FCounty | FAreaCode | FYear.

#[global] Instance filter_kind_eq_dec : EqDecision filter_kind.
Proof. solve_decision. Defined.

Definition filter_order : list filter_kind := [FState; FCounty; FAreaCode; FYear].

Definition filter_label (k : filter_kind) : string :=
  match k with
  | FState => "state_abbr/"
  | FCounty => "county_name/"
  | FAreaCode => "zip_code/"
  | FYear => "reporting_year/"
  end.

Record QuerySpec : Type := mkQuerySpec {
  qs_table_name : string;
  qs_state : option string;
  qs_county : option string;
  qs_area_code : option string;
  qs_year : option string;
  qs_row_range : option string
}.

Definition filter_value (q : QuerySpec) (k : filter_kind) : option string :=
  match k with
  | FState => qs_state q
  | FCounty => qs_county q
  | FAreaCode => qs_area_code q
  | FYear => qs_year q
  end.

Definition segment (k : filter_kind) (v : string) : string :=
  filter_label k +:+ v +:+ "/".

(** The segments of the given filters, each tagged with its filter. *)
Definition given_segments (q : QuerySpec) : list (filter_kind * string) :=
  omap (λ k, (λ v, (k, segment k v)) <$> filter_value q k) filter_order.

Definition rows_suffix (row_range : option string) : string :=
  match row_range with
  | Some r => "/rows/" +:+ r
  | None => ""
  end.

Definition build_path (q : QuerySpec) : string :=
  "https://data.epa.gov/efservice/" +:+ qs_table_name q +:+ "/"
    +:+ str_cat (given_segments q).*2
    +:+ "CSV" +:+ rows_suffix (qs_row_range q).

(** The call [EPAQuery(table_name).construct_query_URL(...)] for a spec. *)
Definition path_of (q : QuerySpec) : string :=
  construct_query_URL (EPAQuery_init (qs_table_name q))
    (qs_state q) (qs_county q) (qs_area_code q) (qs_year q) (qs_row_range q).

(** [with_filter q k v]: [q] with the filter [k] set to [v]. *)
Definition with_filter (q : QuerySpec) (k : filter_kind) (v : option string) : QuerySpec :=
  match k with
  | FState => mkQuerySpec (qs_table_name q) v (qs_county q) (qs_area_code q) (qs_year q) (qs_row_range q)
  | FCounty => mkQuerySpec (qs_table_name q) (qs_state q) v (qs_area_code q) (qs_year q) (qs_row_range q)
  | FAreaCode => mkQuerySpec (qs_table_name q) (qs_state q) (qs_county q) v (qs_year q) (qs_row_range q)
  | FYear => mkQuerySpec (qs_table_name q) (qs_state q) (qs_county q) (qs_area_code q) v (qs_row_range q)
  end.

(** Characters a filter adds to the path. *)
Definition filter_chars (q : QuerySpec) (k : filter_kind) : nat :=
  match filter_value q k with
  | Some v => String.length (filter_label k) + String.length v + 1
  | None => 0
  end.

(** ** Data frames

    What [pd.read_csv] returns: ordered column labels and rows of cells. A
    cell is a number, a string, or null (pandas' NaN, which is what an empty
    CSV field is read as). *)

Inductive value : Type :=
  | VNull
  | VNum (x : Qc)
  | VStr (s : string).

#[global] Instance value_eq_dec : EqDecision value.
Proof. solve_decision. Defined.

Record DataFrame : Type := mkDataFrame {
  columns : list string;
  rows : list (list value)
}.

(** Every row has one cell per column. *)
Definition rectangular (df : DataFrame) : Prop :=
  Forall (λ row, length row = length (columns df)) (rows df).

(** Position of the first column with a label. *)
Fixpoint index_of (label : string) (cols : list string) : option nat :=
  match cols with
  | [] => None
  | c :: cols => if decide (c = label) then Some 0 else S <$> index_of label cols
  end.

Definition cell (i : nat) (row : list value) : value := default VNull (row !! i).

(** The cell of [row] under the column [label] of [df]. *)
Definition cell_at (df : DataFrame) (label : string) (row : list value) : value :=
  from_option (λ i, cell i row) VNull (index_of label (columns df)).

(** ** Exceptions

    A Python call either returns or raises; the exceptions that the modelled
    calls raise are listed, anything else a fetch may raise is [OtherError]. *)

Inductive exn : Type :=
  | KeyError (labels : list string)
  | ValueError (msg : string)
  | OtherError (name : string).

Inductive result (A : Type) : Type :=
  | Ok (a : A)
  | Raise (e : exn).
Arguments Ok {A} a.
Arguments Raise {A} e.

#[global] Instance result_ret : MRet result := λ A a, Ok a.
#[global] Instance result_bind : MBind result := λ A B f m,
  match m with
  | Ok a => f a
  | Raise e => Raise e
  end.

(** A [for] loop whose body may raise, threading the loop state. *)
Fixpoint for_each {A S : Type} (body : S → A → result S) (s : S) (l : list A)
    : result S :=
  match l with
  | [] => Ok s
  | a :: l => s ← body s a; for_each body s l
  end.

(** [d[k]] on a Python dict. *)
Definition dict_get {V : Type} (d : gmap string V) (k : string) : result V :=
  match d !! k with
  | Some v => Ok v
  | None => Raise (KeyError [k])
  end.

(** ** pandas calls made by [main]

    [pd.merge(left, right, left_on=..., right_on=..., how='inner')], the one
    form [main] uses ([how] is ['inner'] by default too, and a single label
    given for [left_on] or [right_on] is the list of that label). This
    models the library's documented behaviour: a label that is no column
    raises [KeyError]; the result keeps the pairs of a left and a right row
    whose key cells are equal for every key pair, left rows in order and
    under each the right rows in order; null keys are equal to each other
    (pandas matches NaN keys, unlike SQL); the columns are the left ones
    followed by the right ones, labels found on both sides getting the
    suffixes [_x] and [_y]. Outside the model: dtype coercion of key
    columns, and a key pair naming the same label on both sides, which
    pandas keeps as one column ([main] pairs labels of different tables,
    which differ by their prefix). *)

Definition get_label_values (df : DataFrame) (label : string) : result nat :=
  match index_of label (columns df) with
  | Some i => Ok i
  | None => Raise (KeyError [label])
  end.

(** For each pair of [zip(left_on, right_on)], the right key is looked up
    before the left one. *)
Fixpoint get_merge_keys (left right : DataFrame) (left_on right_on : list string)
    : result (list (nat * nat)) :=
  match left_on, right_on with
  | lk :: left_on, rk :: right_on =>
      j ← get_label_values right rk;
      i ← get_label_values left lk;
      keys ← get_merge_keys left right left_on right_on;
      Ok ((i, j) :: keys)
  | _, _ => Ok []
  end.

Definition keys_match (keys : list (nat * nat)) (a b : list value) : bool :=
  forallb (λ ij, bool_decide (cell ij.1 a = cell ij.2 b)) keys.

Definition inner_pairs (keys : list (nat * nat)) (ls rs : list (list value))
    : list (list value * list value) :=
  a ← ls; b ← filter (λ b, keys_match keys a b) rs; [(a, b)].

Definition items_overlap_with_suffix (lcols rcols : list string)
    : list string * list string :=
  let to_rename := filter (λ c, c ∈ rcols) lcols in
  ((λ c, if decide (c ∈ to_rename) then c +:+ "_x" else c) <$> lcols,
   (λ c, if decide (c ∈ to_rename) then c +:+ "_y" else c) <$> rcols).

Definition merge (left right : DataFrame) (left_on right_on : list string)
    : result DataFrame :=
  if decide (length right_on = length left_on) then
    keys ← get_merge_keys left right left_on right_on;
    let (llabels, rlabels) := items_overlap_with_suffix (columns left) (columns right) in
    Ok {| columns := llabels ++ rlabels;
          rows := (λ ab, ab.1 ++ ab.2) <$> inner_pairs keys (rows left) (rows right) |}
  else Raise (ValueError "len(right_on) must equal len(left_on)").

(** [df[[label, ...]]]: the listed columns in the listed order; labels that
    are no column raise [KeyError]. *)
Definition getitem_columns (df : DataFrame) (labels : list string) : result DataFrame :=
  match filter (λ c, c ∉ columns df) labels with
  | [] =>
      Ok {| columns := labels;
            rows := (λ row, (λ c, cell_at df c row) <$> labels) <$> rows df |}
  | missing => Raise (KeyError missing)
  end.

(** [df.head(n)] *)
Definition head (n : nat) (df : DataFrame) : DataFrame :=
  {| columns := columns df; rows := take n (rows df) |}.

(** ** main *)

Definition table_names : list string :=
  ["PUB_DIM_FACILITY"; "PUB_FACTS_SECTOR_GHG_EMISSION";
   "PUB_DIM_SECTOR"; "PUB_DIM_SUBSECTOR"; "PUB_DIM_GHG"].

Definition subset_columns : list string :=
  ["PUB_DIM_FACILITY.LATITUDE"; "PUB_DIM_FACILITY.LONGITUDE";
   "PUB_DIM_FACILITY.CITY"; "PUB_DIM_FACILITY.STATE";
   "PUB_DIM_FACILITY.ZIP"; "PUB_DIM_FACILITY.COUNTY";
   "PUB_DIM_FACILITY.ADDRESS1"; "PUB_DIM_FACILITY.YEAR";
   "PUB_DIM_FACILITY.PARENT_COMPANY"; "PUB_DIM_SECTOR.SECTOR_NAME";
   "PUB_DIM_SUBSECTOR.SUBSECTOR_DESC"; "PUB_DIM_GHG.GAS_CODE";
   "PUB_FACTS_SECTOR_GHG_EMISSION.CO2E_EMISSION"].

Section Main.

(** [EPAQuery.read_query_into_pandas]: the GET request and [pd.read_csv]
    are the outside world; the method reads nothing of [self]. *)
Variable read_query_into_pandas : string → result DataFrame.

(** The two dictionaries [main] fills. *)
Record locals : Type := mkLocals {
  epa_dfs : gmap string DataFrame;
  table_objects : gmap string EPAQuery
}.

(** Body of [for table_name in table_names]. *)
Definition fetch_table (st : locals) (table_name : string) : result locals :=
  let table_objects := <[table_name := EPAQuery_init table_name]> (table_objects st) in
  self ← dict_get table_objects table_name;
  let query := construct_query_URL self None None None None None in
  _ ← dict_get table_objects table_name;
  df ← read_query_into_pandas query;
  Ok {| epa_dfs := <[table_name := df]> (epa_dfs st);
        table_objects := table_objects |}.

(** [main]; its value is the frame handed to [print]. *)
Definition main : result DataFrame :=
  st ← for_each fetch_table {| epa_dfs := ∅; table_objects := ∅ |} table_names;
  let epa_dfs := epa_dfs st in
  left ← dict_get epa_dfs "PUB_DIM_FACILITY";
  right ← dict_get epa_dfs "PUB_FACTS_SECTOR_GHG_EMISSION";
  master_df ← merge left right
    ["PUB_DIM_FACILITY.FACILITY_ID"; "PUB_DIM_FACILITY.YEAR"]
    ["PUB_FACTS_SECTOR_GHG_EMISSION.FACILITY_ID";
     "PUB_FACTS_SECTOR_GHG_EMISSION.YEAR"];
  right ← dict_get epa_dfs "PUB_DIM_SECTOR";
  master_df ← merge master_df right
    ["PUB_FACTS_SECTOR_GHG_EMISSION.SECTOR_ID"]
    ["PUB_DIM_SECTOR.SECTOR_ID"];
  right ← dict_get epa_dfs "PUB_DIM_SUBSECTOR";
  master_df ← merge master_df right
    ["PUB_FACTS_SECTOR_GHG_EMISSION.SUBSECTOR_ID"]
    ["PUB_DIM_SUBSECTOR.SUBSECTOR_ID"];
  right ← dict_get epa_dfs "PUB_DIM_GHG";
  master_df ← merge master_df right
    ["PUB_FACTS_SECTOR_GHG_EMISSION.GAS_ID"]
    ["PUB_DIM_GHG.GAS_ID"];
  master_df_subsetted ← getitem_columns master_df subset_columns;
  Ok (head 10 master_df_subsetted).

End Main.

(** ** The orchestrator, in the specification's words *)

(** Inner join of two tables on key-column pairs. *)
Definition inner_join (a b : DataFrame) (on : list (string * string)) : result DataFrame :=
  merge a b on.*1 on.*2.

Definition project (t : DataFrame) (cols : list string) : result DataFrame :=
  getitem_columns t cols.

Definition first_rows (n : nat) (t : DataFrame) : DataFrame := head n t.

Definition orchestrate (facility emission sector subsector ghg : DataFrame)
    : result DataFrame :=
  j ← inner_join facility emission
    [("PUB_DIM_FACILITY.FACILITY_ID", "PUB_FACTS_SECTOR_GHG_EMISSION.FACILITY_ID");
     ("PUB_DIM_FACILITY.YEAR", "PUB_FACTS_SECTOR_GHG_EMISSION.YEAR")];
  j ← inner_join j sector
    [("PUB_FACTS_SECTOR_GHG_EMISSION.SECTOR_ID", "PUB_DIM_SECTOR.SECTOR_ID")];
  j ← inner_join j subsector
    [("PUB_FACTS_SECTOR_GHG_EMISSION.SUBSECTOR_ID", "PUB_DIM_SUBSECTOR.SUBSECTOR_ID")];
  j ← inner_join j ghg
    [("PUB_FACTS_SECTOR_GHG_EMISSION.GAS_ID", "PUB_DIM_GHG.GAS_ID")];
  p ← project j subset_columns;
  Ok (first_rows 10 p).

(** A row of one side moved behind the other side's: the same cells with
    the two sides' columns exchanged. *)
Definition swap_sides (n : nat) (row : list value) : list value :=
  drop n row ++ take n row.

(** ** A fixture: five small tables with one chain of matching keys *)

Module Fixture.

Definition num (z : Z) : value := VNum (Q2Qc (inject_Z z)).
Definition dec (n : Z) (d : positive) : value := VNum (Q2Qc (n # d)).

Definition facility : DataFrame :=
  {| columns :=
       ["PUB_DIM_FACILITY.FACILITY_ID"; "PUB_DIM_FACILITY.LATITUDE";
        "PUB_DIM_FACILITY.LONGITUDE"; "PUB_DIM_FACILITY.CITY";
        "PUB_DIM_FACILITY.STATE"; "PUB_DIM_FACILITY.ZIP";
        "PUB_DIM_FACILITY.COUNTY"; "PUB_DIM_FACILITY.ADDRESS1";
        "PUB_DIM_FACILITY.YEAR"; "PUB_DIM_FACILITY.PARENT_COMPANY"];
     rows :=
       [[num 1001; dec 413 10; dec (-817) 10; VStr "AKRON"; VStr "OH";
         num 44301; VStr "SUMMIT"; VStr "1 MAIN ST"; num 2019; VStr "ACME"];
        [num 1001; dec 413 10; dec (-817) 10; VStr "AKRON"; VStr "OH";
         num 44301; VStr "SUMMIT"; VStr "1 MAIN ST"; num 2018; VNull];
        [num 1002; dec 400 10; dec (-830) 10; VStr "COLUMBUS"; VStr "OH";
         num 43004; VStr "FRANKLIN"; VNull; num 2019; VStr "BOLT"]] |}.

Definition emission : DataFrame :=
  {| columns :=
       ["PUB_FACTS_SECTOR_GHG_EMISSION.FACILITY_ID";
        "PUB_FACTS_SECTOR_GHG_EMISSION.YEAR";
        "PUB_FACTS_SECTOR_GHG_EMISSION.SECTOR_ID";
        "PUB_FACTS_SECTOR_GHG_EMISSION.SUBSECTOR_ID";
        "PUB_FACTS_SECTOR_GHG_EMISSION.GAS_ID";
        "PUB_FACTS_SECTOR_GHG_EMISSION.CO2E_EMISSION"];
     rows :=
       [[num 1001; num 2019; num 3; num 12; num 1; dec 50011 2];
        [num 1001; num 2017; num 3; num 12; num 1; dec 7 2];
        [num 1003; num 2019; num 3; num 12; num 1; num 9];
        [num 1002; num 2019; num 8; num 12; num 1; num 4]] |}.

Definition sector : DataFrame :=
  {| columns := ["PUB_DIM_SECTOR.SECTOR_ID"; "PUB_DIM_SECTOR.SECTOR_NAME"];
     rows := [[num 3; VStr "Power Plants"]; [num 4; VStr "Waste"]] |}.

Definition subsector : DataFrame :=
  {| columns := ["PUB_DIM_SUBSECTOR.SUBSECTOR_ID"; "PUB_DIM_SUBSECTOR.SUBSECTOR_DESC"];
     rows := [[num 12; VStr "Electricity Generation"]] |}.

Definition ghg : DataFrame :=
  {| columns := ["PUB_DIM_GHG.GAS_ID"; "PUB_DIM_GHG.GAS_CODE"];
     rows := [[num 1; VStr "CO2"]; [num 2; VStr "CH4"]] |}.

(** A remote service that serves the five tables and nothing else. *)
Definition serve (query : string) : result DataFrame :=
  if decide (query = "https://data.epa.gov/efservice/PUB_DIM_FACILITY/CSV") then Ok facility
  else if decide (query = "https://data.epa.gov/efservice/PUB_FACTS_SECTOR_GHG_EMISSION/CSV") then Ok emission
  else if decide (query = "https://data.epa.gov/efservice/PUB_DIM_SECTOR/CSV") then Ok sector
  else if decide (query = "https://data.epa.gov/efservice/PUB_DIM_SUBSECTOR/CSV") then Ok subsector
  else if decide (query = "https://data.epa.gov/efservice/PUB_DIM_GHG/CSV") then Ok ghg
  else Raise (OtherError "HTTPError").

(** The one row the chain of keys lets through. *)
Definition expected : DataFrame :=
  {| columns := subset_columns;
     rows :=
       [[dec 413 10; dec (-817) 10; VStr "AKRON"; VStr "OH"; num 44301;
         VStr "SUMMIT"; VStr "1 MAIN ST"; num 2019; VStr "ACME";
         VStr "Power Plants"; VStr "Electricity Generation"; VStr "CO2";
         dec 50011 2]] |}.

(** Two tables whose only rows have a null key. *)
Definition null_left : DataFrame :=
  {| columns := ["L.K"; "L.V"]; rows := [[VNull; VStr "a"]] |}.
Definition null_right : DataFrame :=
  {| columns := ["R.K"; "R.W"]; rows := [[VNull; VStr "b"]] |}.

End Fixture.


(** [epa_dfs] once the loop of [main] has fetched the five tables. *)
Definition fetched_dfs (facility emission sector subsector ghg : DataFrame)
    : gmap string DataFrame :=
  <["PUB_DIM_GHG" := ghg]> (<["PUB_DIM_SUBSECTOR" := subsector]>
    (<["PUB_DIM_SECTOR" := sector]> (<["PUB_FACTS_SECTOR_GHG_EMISSION" := emission]>
      (<["PUB_DIM_FACILITY" := facility]> ∅)))).

(** ** Notions for the further properties *)

(** The query [main] builds for a table: the call
    [table_objects[table_name].construct_query_URL()] with every argument
    at its default. *)
Definition unfiltered_query (table_name : string) : string :=
  construct_query_URL (EPAQuery_init table_name) None None None None None.

(** Every column label of [df] starts with [p], as the labels of a table
    served under the name [p] do. *)
Definition namespaced (p : string) (df : DataFrame) : Prop :=
  Forall (λ c, String.prefix p c = true) (columns df).



(** Remote services for the scenarios below. *)
Module Scenario.

(** The service of the fixture, with the sector table unreachable. *)
Definition sector_down (query : string) : result DataFrame :=
  if decide (query = "https://data.epa.gov/efservice/PUB_DIM_SECTOR/CSV")
  then Raise (OtherError "ConnectionError")
  else Fixture.serve query.

(** The service of the fixture, answering every other query too. *)
Definition answers_all (query : string) : result DataFrame :=
  match Fixture.serve query with
  | Ok df => Ok df
  | Raise _ => Ok Fixture.ghg
  end.

(** The service of the fixture, with a sector table that has no row. *)
Definition no_sector_rows (query : string) : result DataFrame :=
  if decide (query = "https://data.epa.gov/efservice/PUB_DIM_SECTOR/CSV")
  then Ok {| columns := columns Fixture.sector; rows := [] |}
  else Fixture.serve query.


End Scenario.







(** ** Facts on strings *)

Module Str.

Lemma app_cons (c : Ascii.ascii) (s t : string) : String c s +:+ t = String c (s +:+ t).
Proof. reflexivity. Qed.

Lemma app_nil_r (s : string) : s +:+ "" = s.
Proof. induction s as [|c s IH]; [done | by rewrite app_cons, IH]. Qed.

Lemma app_assoc (s1 s2 s3 : string) : (s1 +:+ s2) +:+ s3 = s1 +:+ (s2 +:+ s3).
Proof. induction s1 as [|c s1 IH]; [done | by rewrite !app_cons, IH]. Qed.

Lemma length_app (s1 s2 : string) :
  String.length (s1 +:+ s2) = String.length s1 + String.length s2.
Proof. induction s1 as [|c s1 IH]; [done | by rewrite app_cons; simpl; rewrite IH]. Qed.

Lemma cat_app (l1 l2 : list string) : str_cat (l1 ++ l2) = str_cat l1 +:+ str_cat l2.
Proof.
  induction l1 as [|s l1 IH]; simpl; [done|].
  by rewrite IH, app_assoc.
Qed.

End Str.

(** Bring every chain of appends to the right-nested form. *)
Ltac str_norm := rewrite ?Str.app_assoc, ?Str.app_nil_r.

(** ** Theorems on the query builder *)

Lemma construct_query_URL_unfold self st co ac yr rows :
  construct_query_URL self st co ac yr rows =
  base_url self +:+ table_name self +:+ "/"
    +:+ from_option (segment FState) "" st
    +:+ from_option (segment FCounty) "" co
    +:+ from_option (segment FAreaCode) "" ac
    +:+ from_option (segment FYear) "" yr
    +:+ desired_output_format self +:+ rows_suffix rows.
Proof.
  unfold construct_query_URL, segment.
  destruct st, co, ac, yr, rows; simpl; str_norm; reflexivity.
Qed.

Lemma path_of_build_path q : path_of q = build_path q.
Proof.
  unfold path_of, build_path. rewrite construct_query_URL_unfold.
  destruct q as [t [st|] [co|] [ac|] [yr|] rows]; simpl;
    unfold segment; str_norm; reflexivity.
Qed.
Lemma given_segments_kinds q : (given_segments q).*1 `sublist_of` filter_order.
Proof.
  unfold given_segments, filter_order.
  destruct q as [t [st|] [co|] [ac|] [yr|] rows]; simpl;
    repeat first [ apply sublist_nil | apply sublist_skip | apply sublist_cons ].
Qed.

Lemma given_segments_filter q k :
  filter (λ s, s.1 = k) (given_segments q) =
  match filter_value q k with
  | Some v => [(k, filter_label k +:+ v +:+ "/")]
  | None => []
  end.
Proof.
  destruct q as [t [st|] [co|] [ac|] [yr|] rows], k; reflexivity.
Qed.

Lemma path_of_length q :
  String.length (path_of q) =
  String.length "https://data.epa.gov/efservice/" + String.length (qs_table_name q) + 1
    + sum_list (filter_chars q <$> filter_order)
    + String.length "CSV" + String.length (rows_suffix (qs_row_range q)).
Proof.
  unfold path_of. rewrite construct_query_URL_unfold.
  destruct q as [t [st|] [co|] [ac|] [yr|] rows];
    unfold filter_chars, segment; simpl;
    rewrite ?Str.length_app; simpl; rewrite ?Str.length_app; simpl; lia.
Qed.

(** C2. For every query spec, the path returned by [construct_query_URL] is
    the base URL, the table name and a slash, then the segments of the given
    filters, then the format token and the row suffix; the list of those
    segments follows the fixed order state, county, area code, year; it
    holds the segment of a given filter exactly once and nothing for an
    omitted filter, which therefore adds no character to the path. *)
Theorem construct_query_URL_given_segments (q : QuerySpec) :
  path_of q =
    "https://data.epa.gov/efservice/" +:+ qs_table_name q +:+ "/"
      +:+ str_cat (given_segments q).*2
      +:+ "CSV" +:+ rows_suffix (qs_row_range q)
  ∧ (given_segments q).*1 `sublist_of` [FState; FCounty; FAreaCode; FYear]
  ∧ (∀ k, filter (λ s, s.1 = k) (given_segments q) =
          match filter_value q k with
          | Some v => [(k, filter_label k +:+ v +:+ "/")]
          | None => []
          end)
  ∧ String.length (path_of q) =
      String.length "https://data.epa.gov/efservice/"
      + String.length (qs_table_name q) + 1
      + sum_list (filter_chars q <$> [FState; FCounty; FAreaCode; FYear])
      + String.length "CSV" + String.length (rows_suffix (qs_row_range q)).
Proof.
  split; [apply path_of_build_path|].
  split; [apply given_segments_kinds|].
  split; [apply given_segments_filter | apply path_of_length].
Qed.

(** C6. Whatever the table name and the filters, the path ends with the
    output-format token when [rows_to_include] is [None]; when it is given,
    the path is the path without it followed by ["/rows/"] and the value, so
    that pair sits right after the format token, at the very end. *)
Theorem construct_query_URL_rows (self : EPAQuery) (st co ac yr : option string) :
  ends_with (desired_output_format self)
    (construct_query_URL self st co ac yr None)
  ∧ ∀ r : string,
      construct_query_URL self st co ac yr (Some r) =
        construct_query_URL self st co ac yr None +:+ "/rows/" +:+ r
      ∧ ends_with (desired_output_format self +:+ "/rows/" +:+ r)
          (construct_query_URL self st co ac yr (Some r)).
Proof.
  split.
  - unfold ends_with, construct_query_URL; simpl. eauto.
  - intros r. split.
    + unfold construct_query_URL; simpl. by rewrite Str.app_assoc.
    + rewrite construct_query_URL_unfold.
      exists (base_url self +:+ table_name self +:+ "/"
                +:+ from_option (segment FState) "" st
                +:+ from_option (segment FCounty) "" co
                +:+ from_option (segment FAreaCode) "" ac
                +:+ from_option (segment FYear) "" yr).
      by rewrite !Str.app_assoc.
Qed.

(** C7. The path for table ["T"] with state ["OH"], year ["2019"] and no
    other filter is exactly
    ["https://data.epa.gov/efservice/T/state_abbr/OH/reporting_year/2019/CSV"]. *)
Theorem construct_query_URL_T_OH_2019 :
  construct_query_URL (EPAQuery_init "T") (Some "OH") None None (Some "2019") None
  = "https://data.epa.gov/efservice/T/state_abbr/OH/reporting_year/2019/CSV".
Proof. reflexivity. Qed.



(** C9. An empty string is a given filter: with [desired_state=""] the path
    holds ["state_abbr//"] right after the table name, where with [None] it
    holds nothing; and the same for each of the four filters, whose label
    and a slash are inserted for [""] and nothing for [None]. *)
Theorem empty_filter_is_inserted :
  (∀ (t : string) (co ac yr rows : option string), ∃ rest,
      construct_query_URL (EPAQuery_init t) (Some "") co ac yr rows
        = "https://data.epa.gov/efservice/" +:+ t +:+ "/" +:+ "state_abbr//" +:+ rest
      ∧ construct_query_URL (EPAQuery_init t) None co ac yr rows
        = "https://data.epa.gov/efservice/" +:+ t +:+ "/" +:+ rest)
  ∧ (∀ (q : QuerySpec) (k : filter_kind), ∃ before after,
      path_of (with_filter q k (Some "")) = before +:+ (filter_label k +:+ "/") +:+ after
      ∧ path_of (with_filter q k None) = before +:+ after)
  ∧ construct_query_URL (EPAQuery_init "T") (Some "") None None None None
      = "https://data.epa.gov/efservice/T/state_abbr//CSV".
Proof.
  split; [|split; [|reflexivity]].
  - intros t co ac yr rows.
    exists (from_option (segment FCounty) "" co
              +:+ from_option (segment FAreaCode) "" ac
              +:+ from_option (segment FYear) "" yr
              +:+ "CSV" +:+ rows_suffix rows).
    rewrite !construct_query_URL_unfold. split; reflexivity.
  - intros q k. unfold path_of.
    destruct q as [t st co ac yr rows], k; simpl;
      rewrite !construct_query_URL_unfold; simpl.
    + exists ("https://data.epa.gov/efservice/" +:+ t +:+ "/"),
        (from_option (segment FCounty) "" co
           +:+ from_option (segment FAreaCode) "" ac
           +:+ from_option (segment FYear) "" yr
           +:+ "CSV" +:+ rows_suffix rows).
      by rewrite !Str.app_assoc.
    + exists ("https://data.epa.gov/efservice/" +:+ t +:+ "/"
               +:+ from_option (segment FState) "" st),
        (from_option (segment FAreaCode) "" ac
           +:+ from_option (segment FYear) "" yr
           +:+ "CSV" +:+ rows_suffix rows).
      by rewrite !Str.app_assoc.
    + exists ("https://data.epa.gov/efservice/" +:+ t +:+ "/"
               +:+ from_option (segment FState) "" st
               +:+ from_option (segment FCounty) "" co),
        (from_option (segment FYear) "" yr
           +:+ "CSV" +:+ rows_suffix rows).
      by rewrite !Str.app_assoc.
    + exists ("https://data.epa.gov/efservice/" +:+ t +:+ "/"
               +:+ from_option (segment FState) "" st
               +:+ from_option (segment FCounty) "" co
               +:+ from_option (segment FAreaCode) "" ac),
        ("CSV" +:+ rows_suffix rows).
      by rewrite !Str.app_assoc.
Qed.

Lemma segment_keeps_slash (k : filter_kind) (o : option string) (p : string) :
  ∃ p', (p +:+ "/") +:+ from_option (segment k) "" o = p' +:+ "/".
Proof.
  destruct o as [v|]; simpl.
  - exists (p +:+ "/" +:+ filter_label k +:+ v). unfold segment.
    by rewrite !Str.app_assoc.
  - exists p. by rewrite Str.app_nil_r.
Qed.

(** C10. The format token is the constant ["CSV"]: [__init__] sets it for
    every table name, and every path that [construct_query_URL] builds on
    such an object is a prefix ending in a slash, then ["CSV"], then the row
    suffix. *)
Theorem output_format_is_CSV (t : string) (st co ac yr rows : option string) :
  desired_output_format (EPAQuery_init t) = "CSV"
  ∧ ∃ p, construct_query_URL (EPAQuery_init t) st co ac yr rows
         = (p +:+ "/") +:+ "CSV" +:+ rows_suffix rows.
Proof.
  split; [reflexivity|].
  rewrite construct_query_URL_unfold. simpl.
  destruct (segment_keeps_slash FState st ("https://data.epa.gov/efservice/" +:+ t))
    as [p1 H1].
  destruct (segment_keeps_slash FCounty co p1) as [p2 H2].
  destruct (segment_keeps_slash FAreaCode ac p2) as [p3 H3].
  destruct (segment_keeps_slash FYear yr p3) as [p4 H4].
  exists p4. rewrite <- H4, <- H3, <- H2, <- H1.
  by rewrite !Str.app_assoc.
Qed.

(** ** Facts on the result monad and on column lookup *)

Lemma bind_Ok {A B : Type} (m : result A) (f : A → result B) (b : B) :
  m ≫= f = Ok b ↔ ∃ a, m = Ok a ∧ f a = Ok b.
Proof.
  unfold mbind, result_bind. destruct m as [a|e]; split.
  - eauto.
  - by intros (a' & [= ->] & ?).
  - discriminate.
  - by intros (? & ? & ?).
Qed.

Lemma bind_Raise {A B : Type} (m : result A) (f : A → result B) (e : exn) :
  m ≫= f = Raise e ↔ m = Raise e ∨ ∃ a, m = Ok a ∧ f a = Raise e.
Proof.
  unfold mbind, result_bind. destruct m as [a|e']; split.
  - eauto.
  - by intros [? | (a' & [= ->] & ?)].
  - intros [= ->]. by left.
  - intros [[= ->] | (a & H & _)]; [reflexivity | discriminate H].
Qed.

Lemma index_of_Some (label : string) (cols : list string) (i : nat) :
  index_of label cols = Some i → cols !! i = Some label.
Proof.
  revert i. induction cols as [|c cols IH]; intros i; simpl; [done|].
  case_decide as Hc.
  - by intros [= <-]; subst.
  - destruct (index_of label cols) as [j|]; simpl; [|done].
    intros [= <-]. by apply IH.
Qed.

Lemma index_of_None (label : string) (cols : list string) :
  index_of label cols = None ↔ label ∉ cols.
Proof.
  induction cols as [|c cols IH]; simpl.
  - split; [intros _; apply not_elem_of_nil | done].
  - rewrite not_elem_of_cons. case_decide as Hc.
    + split; [done | intros [? _]; by subst].
    + destruct (index_of label cols) as [j|]; simpl.
      * split; [done|]. intros [_ Hn]. by apply IH in Hn.
      * split; [|done]. intros _. split; [congruence | by apply IH].
Qed.

Lemma index_of_is_Some (label : string) (cols : list string) :
  is_Some (index_of label cols) ↔ label ∈ cols.
Proof.
  destruct (index_of label cols) as [i|] eqn:E.
  - split; [|by eauto]. intros _. apply index_of_Some in E.
    by eapply list_elem_of_lookup_2.
  - split; [by intros [? ?]|]. intros Hin. by apply index_of_None in E.
Qed.

Lemma get_label_values_Ok (df : DataFrame) (label : string) (i : nat) :
  get_label_values df label = Ok i ↔ index_of label (columns df) = Some i.
Proof.
  unfold get_label_values. destruct (index_of label (columns df)); split; congruence.
Qed.

Lemma get_label_values_Raise (df : DataFrame) (label : string) (e : exn) :
  get_label_values df label = Raise e ↔ e = KeyError [label] ∧ label ∉ columns df.
Proof.
  unfold get_label_values. rewrite <- index_of_None.
  destruct (index_of label (columns df)); split; try congruence.
  - by intros [_ ?].
  - by intros [= <-].
  - by intros [-> _].
Qed.

(** ** Facts on [pd.merge] *)

Lemma get_merge_keys_present (l r : DataFrame) (lks rks : list string)
    (keys : list (nat * nat)) :
  length rks = length lks →
  get_merge_keys l r lks rks = Ok keys →
  Forall (λ k, k ∈ columns l) lks ∧ Forall (λ k, k ∈ columns r) rks.
Proof.
  revert rks keys. induction lks as [|lk lks IH]; intros [|rk rks] keys Hlen; try done.
  simpl. intros H.
  apply bind_Ok in H as (j & Hj & H). apply bind_Ok in H as (i & Hi & H).
  apply bind_Ok in H as (keys' & Hk & _).
  apply get_label_values_Ok in Hi, Hj.
  destruct (IH rks keys') as [Hl Hr]; [simpl in Hlen; lia | done |].
  split; constructor; try done; apply index_of_is_Some; eauto.
Qed.

Lemma get_merge_keys_Raise (l r : DataFrame) (lks rks : list string) (e : exn) :
  get_merge_keys l r lks rks = Raise e →
  ∃ k, e = KeyError [k] ∧ ((k ∈ lks ∧ k ∉ columns l) ∨ (k ∈ rks ∧ k ∉ columns r)).
Proof.
  revert rks. induction lks as [|lk lks IH]; intros [|rk rks]; try done.
  simpl. intros H.
  apply bind_Raise in H as [H | (j & _ & H)].
  { apply get_label_values_Raise in H as [-> ?]. exists rk. set_solver. }
  apply bind_Raise in H as [H | (i & _ & H)].
  { apply get_label_values_Raise in H as [-> ?]. exists lk. set_solver. }
  apply bind_Raise in H as [H | (? & _ & ?)]; [|done].
  destruct (IH _ H) as (k & -> & Hk). exists k. split; [done|].
  rewrite !elem_of_cons. tauto.
Qed.

Lemma keys_match_spec (l r : DataFrame) (lks rks : list string)
    (keys : list (nat * nat)) (a b : list value) :
  length rks = length lks →
  get_merge_keys l r lks rks = Ok keys →
  keys_match keys a b = true ↔
  Forall2 (λ lk rk, cell_at l lk a = cell_at r rk b) lks rks.
Proof.
  revert rks keys. induction lks as [|lk lks IH]; intros [|rk rks] keys Hlen; try done.
  - intros [= <-]. split; [constructor | done].
  - simpl. intros H.
    apply bind_Ok in H as (j & Hj & H). apply bind_Ok in H as (i & Hi & H).
    apply bind_Ok in H as (keys' & Hk & [= <-]).
    apply get_label_values_Ok in Hi, Hj.
    unfold keys_match in *. simpl. rewrite andb_true_iff, bool_decide_eq_true.
    rewrite Forall2_cons, (IH rks keys') by (done || (simpl in Hlen; lia)).
    unfold cell_at. by rewrite Hi, Hj.
Qed.

Lemma keys_match_swap (keys : list (nat * nat)) (a b : list value) :
  keys_match (prod_swap <$> keys) b a = keys_match keys a b.
Proof.
  unfold keys_match. induction keys as [|[i j] keys IH]; simpl; [done|].
  f_equal; [apply bool_decide_ext; split; congruence | exact IH].
Qed.

Lemma get_merge_keys_swap (l r : DataFrame) (lks rks : list string)
    (keys : list (nat * nat)) :
  get_merge_keys l r lks rks = Ok keys →
  get_merge_keys r l rks lks = Ok (prod_swap <$> keys).
Proof.
  revert rks keys. induction lks as [|lk lks IH]; intros [|rk rks] keys; simpl;
    try by intros [= <-].
  intros H.
  apply bind_Ok in H as (j & Hj & H). apply bind_Ok in H as (i & Hi & H).
  apply bind_Ok in H as (keys' & Hk & [= <-]).
  rewrite Hi, Hj. simpl. by rewrite (IH _ _ Hk).
Qed.

Lemma elem_of_inner_pairs (keys : list (nat * nat)) (ls rs : list (list value))
    (a b : list value) :
  (a, b) ∈ inner_pairs keys ls rs ↔ a ∈ ls ∧ b ∈ rs ∧ keys_match keys a b = true.
Proof.
  unfold inner_pairs. rewrite list_elem_of_bind. split.
  - intros (a' & Hab & Ha). apply list_elem_of_bind in Hab as (b' & Hab & Hb).
    apply list_elem_of_singleton in Hab as [= -> ->].
    apply list_elem_of_filter in Hb as [Hm Hb]. by apply Is_true_true in Hm.
  - intros (Ha & Hb & Hm). exists a. split; [|done].
    apply list_elem_of_bind. exists b. split; [apply list_elem_of_singleton; done|].
    apply list_elem_of_filter. split; [by apply Is_true_true | done].
Qed.

Lemma merge_Ok (l r : DataFrame) (lks rks : list string) (t : DataFrame) :
  merge l r lks rks = Ok t ↔
  length rks = length lks ∧
  ∃ keys, get_merge_keys l r lks rks = Ok keys ∧
    t = {| columns := (items_overlap_with_suffix (columns l) (columns r)).1
                        ++ (items_overlap_with_suffix (columns l) (columns r)).2;
           rows := (λ ab, ab.1 ++ ab.2) <$> inner_pairs keys (rows l) (rows r) |}.
Proof.
  unfold merge. case_decide as Hlen.
  - rewrite bind_Ok. split.
    + intros (keys & Hk & [= <-]). eauto.
    + intros (_ & keys & Hk & ->). eauto.
  - split; [done | by intros [? _]].
Qed.

(** The rows a merge keeps: every glued pair of a left and a right row
    whose cells agree under every key pair, and nothing else. *)
Lemma merge_rows (l r : DataFrame) (lks rks : list string) (t : DataFrame) :
  merge l r lks rks = Ok t →
  ∀ row, row ∈ rows t ↔
    ∃ a b, row = a ++ b ∧ a ∈ rows l ∧ b ∈ rows r ∧
           Forall2 (λ lk rk, cell_at l lk a = cell_at r rk b) lks rks.
Proof.
  intros (Hlen & keys & Hk & ->)%merge_Ok row. simpl.
  rewrite list_elem_of_fmap. split.
  - intros ([a b] & -> & Hab). apply elem_of_inner_pairs in Hab as (Ha & Hb & Hm).
    exists a, b. repeat split; try done. by eapply keys_match_spec.
  - intros (a & b & -> & Ha & Hb & Hm). exists (a, b). split; [done|].
    apply elem_of_inner_pairs. repeat split; try done. by eapply keys_match_spec.
Qed.

(** A merge whose key lists have equal lengths returns or raises [KeyError]
    for a key that is no column. *)
Lemma merge_Raise (l r : DataFrame) (lks rks : list string) (e : exn) :
  length rks = length lks →
  merge l r lks rks = Raise e →
  ∃ k, e = KeyError [k] ∧ ((k ∈ lks ∧ k ∉ columns l) ∨ (k ∈ rks ∧ k ∉ columns r)).
Proof.
  intros Hlen. unfold merge. rewrite decide_True by done.
  intros [H | (keys & _ & H)]%bind_Raise; [by apply get_merge_keys_Raise | done].
Qed.

Lemma merge_present (l r : DataFrame) (lks rks : list string) (t : DataFrame) :
  merge l r lks rks = Ok t →
  Forall (λ k, k ∈ columns l) lks ∧ Forall (λ k, k ∈ columns r) rks.
Proof.
  intros (Hlen & keys & Hk & _)%merge_Ok. by eapply get_merge_keys_present.
Qed.

(** ** Matching pairs, taken from either side *)

Section Pairs.
Context {A B : Type} (p : A → B → bool).

Lemma bind_no_rows (rs : list B) : rs ≫= (λ _ : B, @nil (B * A)) = [].
Proof. induction rs as [|b rs IH]; [done | by rewrite bind_cons, IH]. Qed.

Lemma bind_pair_r (a : A) (rs : list B) :
  rs ≫= (λ b, [(b, a)]) = (λ b, (b, a)) <$> rs.
Proof. induction rs as [|b rs IH]; [done | by rewrite bind_cons, IH]. Qed.

Lemma bind_pair_l (a : A) (rs : list B) :
  rs ≫= (λ b, [(a, b)]) = (λ b, (a, b)) <$> rs.
Proof. induction rs as [|b rs IH]; [done | by rewrite bind_cons, IH]. Qed.

(** One more row on the side that is scanned second. *)
Lemma pairs_cons_inner (a : A) (ls : list A) (rs : list B) :
  rs ≫= (λ b, filter (λ a', p a' b) (a :: ls) ≫= λ a', [(b, a')])
  ≡ₚ (filter (λ b, p a b) rs ≫= λ b, [(b, a)])
     ++ (rs ≫= λ b, filter (λ a', p a' b) ls ≫= λ a', [(b, a')]).
Proof.
  induction rs as [|b rs IH]; [done|].
  rewrite !bind_cons, IH. clear IH.
  destruct (p a b) eqn:Hp.
  - rewrite (filter_cons_True (λ a', p a' b)) by (by apply Is_true_true).
    rewrite (filter_cons_True (λ b', p a b')) by (by apply Is_true_true).
    rewrite !bind_cons. simpl. constructor.
    rewrite !(assoc_L (++)). apply Permutation_app_tail, Permutation_app_comm.
  - rewrite (filter_cons_False (λ a', p a' b)) by (by rewrite Is_true_false).
    rewrite (filter_cons_False (λ b', p a b')) by (by rewrite Is_true_false).
    rewrite !(assoc_L (++)). apply Permutation_app_tail, Permutation_app_comm.
Qed.

Lemma pairs_swap (ls : list A) (rs : list B) :
  prod_swap <$> (ls ≫= λ a, filter (λ b, p a b) rs ≫= λ b, [(a, b)])
  ≡ₚ rs ≫= λ b, filter (λ a, p a b) ls ≫= λ a, [(b, a)].
Proof.
  induction ls as [|a ls IH].
  - simpl. by rewrite bind_no_rows.
  - rewrite bind_cons, fmap_app, IH, pairs_cons_inner.
    apply Permutation_app_tail.
    rewrite bind_pair_l, bind_pair_r, <- list_fmap_compose. done.
Qed.
End Pairs.

Lemma filter_bool_ext {A : Type} (p q : A → bool) (l : list A) :
  (∀ x, p x = q x) → filter (λ x, p x) l = filter (λ x, q x) l.
Proof.
  intros E. induction l as [|x l IH]; [done|].
  rewrite !filter_cons, IH.
  destruct (decide (p x)) as [Hp|Hp], (decide (q x)) as [Hq|Hq];
    try done; rewrite E in Hp; contradiction.
Qed.

Lemma inner_pairs_swap (keys : list (nat * nat)) (ls rs : list (list value)) :
  inner_pairs (prod_swap <$> keys) rs ls ≡ₚ prod_swap <$> inner_pairs keys ls rs.
Proof.
  unfold inner_pairs.
  rewrite (pairs_swap (keys_match keys)).
  induction rs as [|b rs IH]; [done|].
  rewrite !bind_cons, IH. apply Permutation_app_tail.
  rewrite (filter_bool_ext (λ a, keys_match (prod_swap <$> keys) b a)
             (λ a, keys_match keys a b)); [done|].
  intros a. apply keys_match_swap.
Qed.

Lemma swap_sides_app (a b : list value) :
  swap_sides (length a) (a ++ b) = b ++ a.
Proof. unfold swap_sides. by rewrite drop_app_length, take_app_length. Qed.

(** ** The claims on the inner join *)




(** C4. A merge whose key lists pair up, one of whose keys is no column of
    the table it is looked up in, raises [KeyError] naming such a key; it
    returns no table. *)
Theorem merge_missing_key_raises (l r : DataFrame) (lks rks : list string) :
  length rks = length lks →
  Exists (λ k, k ∉ columns l) lks ∨ Exists (λ k, k ∉ columns r) rks →
  (∃ k, merge l r lks rks = Raise (KeyError [k])
        ∧ ((k ∈ lks ∧ k ∉ columns l) ∨ (k ∈ rks ∧ k ∉ columns r)))
  ∧ ∀ t, merge l r lks rks ≠ Ok t.
Proof.
  intros Hlen Hmiss.
  assert (Hno : ∀ t, merge l r lks rks ≠ Ok t).
  { intros t [Hl Hr]%merge_present.
    destruct Hmiss as [Hx | Hx]; apply Exists_exists in Hx as (k & Hk & Hn);
      rewrite Forall_forall in Hl, Hr; naive_solver. }
  split; [|done].
  destruct (merge l r lks rks) as [t|e] eqn:Hm; [by destruct (Hno t)|].
  destruct (merge_Raise _ _ _ _ _ Hlen Hm) as (k & -> & Hk). eauto.
Qed.

Lemma merge_missing_key_raises_witness :
  (∃ k, merge Fixture.facility Fixture.sector
          ["PUB_FACTS_SECTOR_GHG_EMISSION.SECTOR_ID"] ["PUB_DIM_SECTOR.SECTOR_ID"]
        = Raise (KeyError [k])
        ∧ ((k ∈ ["PUB_FACTS_SECTOR_GHG_EMISSION.SECTOR_ID"] ∧ k ∉ columns Fixture.facility)
           ∨ (k ∈ ["PUB_DIM_SECTOR.SECTOR_ID"] ∧ k ∉ columns Fixture.sector)))
  ∧ ∀ t, merge Fixture.facility Fixture.sector
           ["PUB_FACTS_SECTOR_GHG_EMISSION.SECTOR_ID"] ["PUB_DIM_SECTOR.SECTOR_ID"] ≠ Ok t.
Proof.
  apply (merge_missing_key_raises Fixture.facility Fixture.sector
           ["PUB_FACTS_SECTOR_GHG_EMISSION.SECTOR_ID"] ["PUB_DIM_SECTOR.SECTOR_ID"]).
  - reflexivity.
  - left. apply Exists_cons_hd. apply index_of_None. reflexivity.
Defined.

(** C5. When the left table is rectangular and a merge of it with a right
    table returns, the merge in the other direction on the exchanged keys
    returns too, and its rows are the rows of the first with the two sides
    exchanged, up to order: the same row contents, as often. *)
Theorem merge_commutes (l r : DataFrame) (lks rks : list string) (tlr : DataFrame) :
  rectangular l →
  merge l r lks rks = Ok tlr →
  ∃ trl, merge r l rks lks = Ok trl
    ∧ rows trl ≡ₚ swap_sides (length (columns l)) <$> rows tlr
    ∧ (∀ row', row' ∈ rows trl ↔
         ∃ row, row ∈ rows tlr ∧ row' = swap_sides (length (columns l)) row).
Proof.
  intros Hrect (Hlen & keys & Hk & ->)%merge_Ok.
  eexists. split.
  { apply merge_Ok. split; [done|]. eexists. split; [|reflexivity].
    by apply get_merge_keys_swap. }
  simpl.
  assert (Hperm :
    (λ ab, ab.1 ++ ab.2) <$> inner_pairs (prod_swap <$> keys) (rows r) (rows l)
    ≡ₚ swap_sides (length (columns l)) <$>
         ((λ ab, ab.1 ++ ab.2) <$> inner_pairs keys (rows l) (rows r))).
  { rewrite inner_pairs_swap, <- !list_fmap_compose.
    apply eq_subrelation; [apply _|].
    apply Forall_fmap_ext_1, Forall_forall. intros [a b] Hab.
    apply elem_of_inner_pairs in Hab as (Ha & _ & _). simpl.
    unfold rectangular in Hrect. rewrite Forall_forall in Hrect.
    by rewrite <- (Hrect a Ha), swap_sides_app. }
  split; [done|].
  intros row'. rewrite Hperm, list_elem_of_fmap. split.
  - intros (row & -> & Hrow). eauto.
  - intros (row & Hrow & ->). eauto.
Qed.

Lemma merge_commutes_witness :
  ∃ trl, merge Fixture.null_right Fixture.null_left ["R.K"] ["L.K"] = Ok trl
    ∧ rows trl ≡ₚ swap_sides 2 <$> [[VNull; VStr "a"; VNull; VStr "b"]]
    ∧ (∀ row', row' ∈ rows trl ↔
         ∃ row, row ∈ [[VNull; VStr "a"; VNull; VStr "b"]] ∧ row' = swap_sides 2 row).
Proof.
  apply (merge_commutes Fixture.null_left Fixture.null_right ["L.K"] ["R.K"]
           {| columns := ["L.K"; "L.V"; "R.K"; "R.W"];
              rows := [[VNull; VStr "a"; VNull; VStr "b"]] |}).
  - repeat constructor.
  - reflexivity.
Defined.

(** ** main *)

Lemma fetch_table_Ok (read : string → result DataFrame) (st : locals)
    (table_name : string) (df : DataFrame) :
  read (construct_query_URL (EPAQuery_init table_name) None None None None None) = Ok df →
  fetch_table read st table_name =
    Ok {| epa_dfs := <[table_name := df]> (epa_dfs st);
          table_objects := <[table_name := EPAQuery_init table_name]> (table_objects st) |}.
Proof.
  intros Hread. unfold fetch_table, dict_get.
  rewrite lookup_insert_eq. simpl in Hread |- *. by rewrite Hread.
Qed.

Section FetchedTables.
Variables facility emission sector subsector ghg : DataFrame.

Lemma fetched_lookup :
  let fetched := fetched_dfs facility emission sector subsector ghg in
  fetched !! "PUB_DIM_FACILITY" = Some facility
  ∧ fetched !! "PUB_FACTS_SECTOR_GHG_EMISSION" = Some emission
  ∧ fetched !! "PUB_DIM_SECTOR" = Some sector
  ∧ fetched !! "PUB_DIM_SUBSECTOR" = Some subsector
  ∧ fetched !! "PUB_DIM_GHG" = Some ghg.
Proof. unfold fetched_dfs. repeat split; by simplify_map_eq. Qed.

Variable read : string → result DataFrame.
Hypothesis read_facility :
  read "https://data.epa.gov/efservice/PUB_DIM_FACILITY/CSV" = Ok facility.
Hypothesis read_emission :
  read "https://data.epa.gov/efservice/PUB_FACTS_SECTOR_GHG_EMISSION/CSV" = Ok emission.
Hypothesis read_sector :
  read "https://data.epa.gov/efservice/PUB_DIM_SECTOR/CSV" = Ok sector.
Hypothesis read_subsector :
  read "https://data.epa.gov/efservice/PUB_DIM_SUBSECTOR/CSV" = Ok subsector.
Hypothesis read_ghg :
  read "https://data.epa.gov/efservice/PUB_DIM_GHG/CSV" = Ok ghg.

Lemma fetch_loop :
  ∃ objs, for_each (fetch_table read) {| epa_dfs := ∅; table_objects := ∅ |} table_names
          = Ok {| epa_dfs := fetched_dfs facility emission sector subsector ghg;
                  table_objects := objs |}.
Proof.
  unfold table_names. simpl.
  rewrite (fetch_table_Ok _ _ _ facility) by exact read_facility. simpl.
  rewrite (fetch_table_Ok _ _ _ emission) by exact read_emission. simpl.
  rewrite (fetch_table_Ok _ _ _ sector) by exact read_sector. simpl.
  rewrite (fetch_table_Ok _ _ _ subsector) by exact read_subsector. simpl.
  rewrite (fetch_table_Ok _ _ _ ghg) by exact read_ghg. simpl.
  eexists. reflexivity.
Qed.

Lemma main_orchestrate :
  main read = orchestrate facility emission sector subsector ghg.
Proof.
  unfold main. destruct fetch_loop as [objs ->].
  destruct fetched_lookup as (Hf & He & Hs & Hss & Hg).
  set (fetched := fetched_dfs facility emission sector subsector ghg) in *.
  unfold orchestrate, inner_join, project, first_rows, dict_get. simpl.
  rewrite Hf. simpl. rewrite He. simpl.
  destruct (merge facility emission _ _) as [m1|e1]; simpl; [|done].
  rewrite Hs. simpl.
  destruct (merge m1 sector _ _) as [m2|e2]; simpl; [|done].
  rewrite Hss. simpl.
  destruct (merge m2 subsector _ _) as [m3|e3]; simpl; [|done].
  rewrite Hg. simpl. done.
Qed.
End FetchedTables.

(** The sequence of [orchestrate], step by step. *)
Lemma orchestrate_Ok (facility emission sector subsector ghg out : DataFrame) :
  orchestrate facility emission sector subsector ghg = Ok out ↔
  ∃ j1 j2 j3 j4 p,
    merge facility emission
      ["PUB_DIM_FACILITY.FACILITY_ID"; "PUB_DIM_FACILITY.YEAR"]
      ["PUB_FACTS_SECTOR_GHG_EMISSION.FACILITY_ID"; "PUB_FACTS_SECTOR_GHG_EMISSION.YEAR"]
      = Ok j1
    ∧ merge j1 sector ["PUB_FACTS_SECTOR_GHG_EMISSION.SECTOR_ID"]
        ["PUB_DIM_SECTOR.SECTOR_ID"] = Ok j2
    ∧ merge j2 subsector ["PUB_FACTS_SECTOR_GHG_EMISSION.SUBSECTOR_ID"]
        ["PUB_DIM_SUBSECTOR.SUBSECTOR_ID"] = Ok j3
    ∧ merge j3 ghg ["PUB_FACTS_SECTOR_GHG_EMISSION.GAS_ID"]
        ["PUB_DIM_GHG.GAS_ID"] = Ok j4
    ∧ getitem_columns j4 subset_columns = Ok p
    ∧ out = {| columns := columns p; rows := take 10 (rows p) |}.
Proof.
  unfold orchestrate, inner_join, project, first_rows, head. simpl. split.
  - intros (j1 & H1 & H)%bind_Ok. apply bind_Ok in H as (j2 & H2 & H).
    apply bind_Ok in H as (j3 & H3 & H). apply bind_Ok in H as (j4 & H4 & H).
    apply bind_Ok in H as (p & Hp & [= <-]).
    by exists j1, j2, j3, j4, p.
  - intros (j1 & j2 & j3 & j4 & p & H1 & H2 & H3 & H4 & Hp & ->).
    rewrite H1; simpl. rewrite H2; simpl. rewrite H3; simpl.
    rewrite H4; simpl. by rewrite Hp.
Qed.



(** On the fixture the chain lets one row through, with its 13 cells. *)
Example main_on_fixture : main Fixture.serve = Ok Fixture.expected.
Proof. vm_compute. reflexivity. Qed.

(** [main] on fetched tables one of which lacks a key column of its merge
    raises [KeyError]. *)
Lemma main_missing_key_raises (read : string → result DataFrame)
    (facility emission sector subsector ghg : DataFrame) :
  read "https://data.epa.gov/efservice/PUB_DIM_FACILITY/CSV" = Ok facility →
  read "https://data.epa.gov/efservice/PUB_FACTS_SECTOR_GHG_EMISSION/CSV" = Ok emission →
  read "https://data.epa.gov/efservice/PUB_DIM_SECTOR/CSV" = Ok sector →
  read "https://data.epa.gov/efservice/PUB_DIM_SUBSECTOR/CSV" = Ok subsector →
  read "https://data.epa.gov/efservice/PUB_DIM_GHG/CSV" = Ok ghg →
  "PUB_DIM_FACILITY.FACILITY_ID" ∉ columns facility
  ∨ "PUB_DIM_FACILITY.YEAR" ∉ columns facility
  ∨ "PUB_FACTS_SECTOR_GHG_EMISSION.FACILITY_ID" ∉ columns emission
  ∨ "PUB_FACTS_SECTOR_GHG_EMISSION.YEAR" ∉ columns emission
  ∨ "PUB_DIM_SECTOR.SECTOR_ID" ∉ columns sector
  ∨ "PUB_DIM_SUBSECTOR.SUBSECTOR_ID" ∉ columns subsector
  ∨ "PUB_DIM_GHG.GAS_ID" ∉ columns ghg →
  ∃ k, main read = Raise (KeyError [k]).
Proof.
  intros Hf He Hs Hss Hg Hmiss.
  rewrite (main_orchestrate _ _ _ _ _ read Hf He Hs Hss Hg).
  unfold orchestrate, inner_join. simpl.
  destruct (merge facility emission _ _) as [j1|e] eqn:H1; simpl;
    [|apply merge_Raise in H1 as (k & -> & _); [by exists k | done]].
  destruct (merge j1 sector _ _) as [j2|e] eqn:H2; simpl;
    [|apply merge_Raise in H2 as (k & -> & _); [by exists k | done]].
  destruct (merge j2 subsector _ _) as [j3|e] eqn:H3; simpl;
    [|apply merge_Raise in H3 as (k & -> & _); [by exists k | done]].
  destruct (merge j3 ghg _ _) as [j4|e] eqn:H4; simpl;
    [|apply merge_Raise in H4 as (k & -> & _); [by exists k | done]].
  apply merge_present in H1 as [Hl1 Hr1], H2 as [_ Hr2], H3 as [_ Hr3], H4 as [_ Hr4].
  exfalso.
  apply Forall_cons in Hl1 as [? [? _]%Forall_cons].
  apply Forall_cons in Hr1 as [? [? _]%Forall_cons].
  apply Forall_cons in Hr2 as [? _], Hr3 as [? _], Hr4 as [? _].
  tauto.
Qed.


(** ** Further properties of the query builder *)

Lemma str_app_inj_r (s1 s2 t : string) : s1 +:+ t = s2 +:+ t → s1 = s2.
Proof.
  revert s2. induction s1 as [|c s1 IH]; intros [|c2 s2] H; [done| | |].
  - change (t = String c2 (s2 +:+ t)) in H.
    apply (f_equal String.length) in H. simpl in H.
    rewrite Str.length_app in H. lia.
  - change (String c (s1 +:+ t) = t) in H.
    apply (f_equal String.length) in H. simpl in H.
    rewrite Str.length_app in H. lia.
  - rewrite !Str.app_cons in H. injection H as -> H. f_equal. by apply IH.
Qed.

Lemma str_prefix_app (p s : string) : String.prefix p (p +:+ s) = true.
Proof.
  induction p as [|c p IH]; [by destruct s|].
  rewrite Str.app_cons. simpl. by destruct (Ascii.ascii_dec c c).
Qed.

Lemma str_prefix_inv (p c : string) :
  String.prefix p c = true → ∃ rest, c = p +:+ rest.
Proof.
  revert c. induction p as [|a p IH]; intros c H; [by exists c|].
  destruct c as [|b c]; [done|]. simpl in H.
  destruct (Ascii.ascii_dec a b) as [->|]; [|done].
  destruct (IH c H) as [rest ->]. by exists rest.
Qed.

(** X1. With the filters and the row range fixed, the table name can be
    read back from the path: two objects whose paths agree were built for
    the same table. *)
Theorem construct_query_URL_table_inj (t1 t2 : string)
    (st co ac yr rows : option string) :
  construct_query_URL (EPAQuery_init t1) st co ac yr rows
    = construct_query_URL (EPAQuery_init t2) st co ac yr rows →
  t1 = t2.
Proof.
  rewrite !construct_query_URL_unfold. simpl. intros H.
  apply (inj (String.append _)) in H. by apply str_app_inj_r in H.
Qed.

Lemma construct_query_URL_table_inj_witness : "PUB_DIM_GHG" = "PUB_DIM_GHG".
Proof.
  apply (construct_query_URL_table_inj "PUB_DIM_GHG" "PUB_DIM_GHG"
           (Some "OH") None None None None).
  reflexivity.
Defined.

(** X2. With the object and the filters fixed, the row range can be read
    back from the path: giving it or not, and giving different ranges,
    yields different paths. *)
Theorem rows_to_include_inj (self : EPAQuery)
    (st co ac yr rows1 rows2 : option string) :
  construct_query_URL self st co ac yr rows1
    = construct_query_URL self st co ac yr rows2 →
  rows1 = rows2.
Proof.
  rewrite !construct_query_URL_unfold. intros H.
  repeat apply (inj (String.append _)) in H.
  destruct rows1 as [r1|], rows2 as [r2|]; simpl in H; try done.
  by apply (inj (String.append _)) in H as ->.
Qed.

Lemma rows_to_include_inj_witness : Some "1:19" = Some "1:19".
Proof.
  apply (rows_to_include_inj (EPAQuery_init "T")
           (Some "OH") None None None (Some "1:19") (Some "1:19")).
  reflexivity.
Defined.

(** X3. Filter values are inserted verbatim, so the path does not tell the
    filters apart: a state value that carries the text of a county segment
    gives the path of that state together with that county. *)
Theorem construct_query_URL_no_escaping (self : EPAQuery) (a b : string)
    (ac yr rows : option string) :
  construct_query_URL self (Some (a +:+ "/county_name/" +:+ b)) None ac yr rows
  = construct_query_URL self (Some a) (Some b) ac yr rows.
Proof.
  rewrite !construct_query_URL_unfold. unfold segment. simpl.
  by rewrite !Str.app_assoc.
Qed.

(** X4. Whatever the filters and the row range hold, the path starts with
    the base URL, the table name and a slash. *)
Theorem construct_query_URL_prefix (self : EPAQuery)
    (st co ac yr rows : option string) :
  String.prefix (base_url self +:+ table_name self +:+ "/")
    (construct_query_URL self st co ac yr rows) = true.
Proof.
  rewrite construct_query_URL_unfold.
  assert (E : ∀ r, base_url self +:+ table_name self +:+ "/" +:+ r
                   = (base_url self +:+ table_name self +:+ "/") +:+ r)
    by (intros r; by rewrite !Str.app_assoc).
  rewrite E. apply str_prefix_app.
Qed.

(** ** Further facts on the pandas calls *)

Lemma getitem_columns_Ok (df : DataFrame) (labels : list string) (p : DataFrame) :
  getitem_columns df labels = Ok p ↔
  Forall (λ c, c ∈ columns df) labels
  ∧ p = {| columns := labels;
           rows := (λ row, (λ c, cell_at df c row) <$> labels) <$> rows df |}.
Proof.
  unfold getitem_columns.
  destruct (filter (λ c, c ∉ columns df) labels) as [|m ms] eqn:E.
  - split; [intros [= <-] | by intros [_ ->]]. split; [|done].
    apply Forall_forall. intros c Hc.
    destruct (decide (c ∈ columns df)) as [|Hn]; [done|].
    assert (Hin : c ∈ filter (λ c, c ∉ columns df) labels)
      by (by apply list_elem_of_filter).
    rewrite E in Hin. by apply elem_of_nil in Hin.
  - split; [done|]. intros [Hall _]. exfalso.
    assert (Hin : m ∈ filter (λ c, c ∉ columns df) labels)
      by (rewrite E; apply list_elem_of_here).
    apply list_elem_of_filter in Hin as [Hn Hin].
    rewrite Forall_forall in Hall. by apply Hn, Hall.
Qed.

Lemma inner_pairs_nil_r (keys : list (nat * nat)) (ls : list (list value)) :
  inner_pairs keys ls [] = [].
Proof.
  unfold inner_pairs. induction ls as [|a ls IH]; [done|].
  by rewrite bind_cons, IH.
Qed.

Lemma inner_pairs_length (keys : list (nat * nat)) (ls rs : list (list value)) :
  (length (inner_pairs keys ls rs) ≤ length ls * length rs)%nat.
Proof.
  unfold inner_pairs. induction ls as [|a ls IH]; [done|].
  rewrite bind_cons, length_app, bind_pair_l, length_fmap. simpl.
  pose proof (length_filter (λ b, keys_match keys a b) rs). lia.
Qed.


Lemma no_overlap (lcols rcols : list string) :
  (∀ c, c ∈ lcols → c ∉ rcols) → filter (λ c, c ∈ rcols) lcols = [].
Proof.
  intros Hdis. induction lcols as [|c lcols IH]; [done|].
  rewrite filter_cons_False by (apply Hdis, list_elem_of_here).
  apply IH. intros c' Hc'. apply Hdis. by apply list_elem_of_further.
Qed.

Lemma no_rename (suffix : string) (cols : list string) :
  (λ c, if decide (c ∈ @nil string) then c +:+ suffix else c) <$> cols = cols.
Proof.
  induction cols as [|c cols IH]; [done|].
  rewrite fmap_cons, IH. by rewrite decide_False by apply not_elem_of_nil.
Qed.

(** With no label on both sides, the merged frame has the left labels
    followed by the right ones, as they are. *)
Lemma merge_columns_disjoint (l r : DataFrame) (lks rks : list string) (t : DataFrame) :
  merge l r lks rks = Ok t →
  (∀ c, c ∈ columns l → c ∉ columns r) →
  columns t = columns l ++ columns r.
Proof.
  intros (_ & keys & _ & ->)%merge_Ok Hdis. simpl.
  unfold items_overlap_with_suffix. simpl.
  by rewrite (no_overlap _ _ Hdis), !no_rename.
Qed.

Lemma merge_no_rows (l r : DataFrame) (lks rks : list string) (t : DataFrame) :
  merge l r lks rks = Ok t → rows l = [] ∨ rows r = [] → rows t = [].
Proof.
  intros (_ & keys & _ & ->)%merge_Ok [E | E]; simpl; rewrite E; [done|].
  by rewrite inner_pairs_nil_r.
Qed.











(** X6. A merge that returns has at most one row per pair of a left and a
    right row, and no row when either frame has none. *)
Theorem merge_row_count (l r : DataFrame) (lks rks : list string) (t : DataFrame) :
  merge l r lks rks = Ok t →
  (length (rows t) ≤ length (rows l) * length (rows r))%nat
  ∧ (rows l = [] ∨ rows r = [] → rows t = []).
Proof.
  intros Hm. split; [|by apply (merge_no_rows _ _ _ _ _ Hm)].
  apply merge_Ok in Hm as (_ & keys & _ & ->). simpl.
  rewrite length_fmap. apply inner_pairs_length.
Qed.

Lemma merge_row_count_witness :
  (length [[VNull; VStr "a"; VNull; VStr "b"]]
     ≤ length (rows Fixture.null_left) * length (rows Fixture.null_right))%nat
  ∧ (rows Fixture.null_left = [] ∨ rows Fixture.null_right = [] →
     [[VNull; VStr "a"; VNull; VStr "b"]] = []).
Proof.
  apply (merge_row_count Fixture.null_left Fixture.null_right ["L.K"] ["R.K"]
           {| columns := ["L.K"; "L.V"; "R.K"; "R.W"];
              rows := [[VNull; VStr "a"; VNull; VStr "b"]] |}).
  reflexivity.
Defined.


(** ** Further properties of [main] *)

Lemma for_each_app {A S : Type} (body : S → A → result S) (s : S) (l1 l2 : list A) :
  for_each body s (l1 ++ l2) = for_each body s l1 ≫= λ s', for_each body s' l2.
Proof.
  revert s. induction l1 as [|a l1 IH]; intros s; [done|].
  simpl. destruct (body s a) as [s'|e]; simpl; [apply IH | done].
Qed.

Lemma for_each_ext {A S : Type} (body1 body2 : S → A → result S) (s : S) (l : list A) :
  Forall (λ a, ∀ s, body1 s a = body2 s a) l →
  for_each body1 s l = for_each body2 s l.
Proof.
  intros Hl. revert s. induction Hl as [|a l Ha _ IH]; intros s; [done|].
  simpl. rewrite Ha. destruct (body2 s a) as [s'|e]; simpl; [apply IH | done].
Qed.

Lemma fetch_table_unfold (read : string → result DataFrame) (st : locals)
    (table_name : string) :
  fetch_table read st table_name =
  read (unfiltered_query table_name) ≫= λ df,
    Ok {| epa_dfs := <[table_name := df]> (epa_dfs st);
          table_objects := <[table_name := EPAQuery_init table_name]> (table_objects st) |}.
Proof.
  unfold fetch_table, dict_get. rewrite lookup_insert_eq. reflexivity.
Qed.

Lemma for_each_fetch_Ok (read : string → result DataFrame) (st : locals)
    (names : list string) :
  Forall (λ n, ∃ df, read (unfiltered_query n) = Ok df) names →
  ∃ st', for_each (fetch_table read) st names = Ok st'.
Proof.
  intros Hn. revert st. induction Hn as [|n names [df Hdf] _ IH]; intros st.
  - by exists st.
  - simpl. rewrite fetch_table_unfold, Hdf. simpl. apply IH.
Qed.

(** X8. Whatever the remote service answers, a frame that [main] returns
    has the 13 selected columns, at most 10 rows, and 13 cells in every
    row. *)
Theorem main_output_shape (read : string → result DataFrame) (out : DataFrame) :
  main read = Ok out →
  columns out = subset_columns
  ∧ (length (rows out) ≤ 10)%nat
  ∧ Forall (λ row, length row = 13) (rows out).
Proof.
  unfold main. intros H.
  apply bind_Ok in H as (st & _ & H).
  apply bind_Ok in H as (l & _ & H). apply bind_Ok in H as (r1 & _ & H).
  apply bind_Ok in H as (m1 & _ & H). apply bind_Ok in H as (r2 & _ & H).
  apply bind_Ok in H as (m2 & _ & H). apply bind_Ok in H as (r3 & _ & H).
  apply bind_Ok in H as (m3 & _ & H). apply bind_Ok in H as (r4 & _ & H).
  apply bind_Ok in H as (m4 & _ & H). apply bind_Ok in H as (p & Hp & [= <-]).
  apply getitem_columns_Ok in Hp as [_ ->]. unfold head. simpl.
  split; [done|]. split; [apply firstn_le_length|].
  apply Forall_take, Forall_fmap, Forall_forall. intros row _. reflexivity.
Qed.

Lemma main_output_shape_witness :
  columns Fixture.expected = subset_columns
  ∧ (length (rows Fixture.expected) ≤ 10)%nat
  ∧ Forall (λ row, length row = 13) (rows Fixture.expected).
Proof.
  apply (main_output_shape Fixture.serve Fixture.expected).
  vm_compute. reflexivity.
Defined.

(** X9. The tables are fetched in the order of [table_names], and the
    first fetch that raises ends [main] with that exception: no later table
    is asked for and nothing is merged. *)
Theorem main_fetch_failure (read : string → result DataFrame)
    (before after : list string) (table_name : string) (e : exn) :
  table_names = before ++ table_name :: after →
  Forall (λ n, ∃ df, read (unfiltered_query n) = Ok df) before →
  read (unfiltered_query table_name) = Raise e →
  main read = Raise e.
Proof.
  intros Hnames Hbefore Hfail. unfold main. rewrite Hnames, for_each_app.
  destruct (for_each_fetch_Ok read {| epa_dfs := ∅; table_objects := ∅ |}
              before Hbefore) as [st' ->].
  simpl. by rewrite fetch_table_unfold, Hfail.
Qed.

Lemma main_fetch_failure_witness :
  main Scenario.sector_down = Raise (OtherError "ConnectionError").
Proof.
  apply (main_fetch_failure Scenario.sector_down
           ["PUB_DIM_FACILITY"; "PUB_FACTS_SECTOR_GHG_EMISSION"]
           ["PUB_DIM_SUBSECTOR"; "PUB_DIM_GHG"] "PUB_DIM_SECTOR").
  - reflexivity.
  - repeat constructor; eexists; vm_compute; reflexivity.
  - vm_compute. reflexivity.
Defined.

(** X10. [main] asks the remote service for the five unfiltered queries of
    [table_names] and for nothing else: two services that answer those five
    alike give the same run. *)
Theorem main_reads_five_queries (read1 read2 : string → result DataFrame) :
  Forall (λ n, read1 (unfiltered_query n) = read2 (unfiltered_query n)) table_names →
  main read1 = main read2.
Proof.
  intros Hagree. unfold main.
  rewrite (for_each_ext (fetch_table read1) (fetch_table read2)); [done|].
  eapply Forall_impl; [exact Hagree|]. intros n Hn st. simpl in Hn.
  by rewrite !fetch_table_unfold, Hn.
Qed.

Lemma main_reads_five_queries_witness :
  main Fixture.serve = main Scenario.answers_all.
Proof.
  apply (main_reads_five_queries Fixture.serve Scenario.answers_all).
  repeat constructor; vm_compute; reflexivity.
Defined.

(** X11. When the five tables are fetched and one of them has no row, a
    frame that [main] returns has no row. *)
Theorem main_empty_table (read : string → result DataFrame)
    (facility emission sector subsector ghg out : DataFrame) :
  read "https://data.epa.gov/efservice/PUB_DIM_FACILITY/CSV" = Ok facility →
  read "https://data.epa.gov/efservice/PUB_FACTS_SECTOR_GHG_EMISSION/CSV" = Ok emission →
  read "https://data.epa.gov/efservice/PUB_DIM_SECTOR/CSV" = Ok sector →
  read "https://data.epa.gov/efservice/PUB_DIM_SUBSECTOR/CSV" = Ok subsector →
  read "https://data.epa.gov/efservice/PUB_DIM_GHG/CSV" = Ok ghg →
  rows facility = [] ∨ rows emission = [] ∨ rows sector = []
    ∨ rows subsector = [] ∨ rows ghg = [] →
  main read = Ok out →
  rows out = [].
Proof.
  intros Hf He Hs Hss Hg Hempty.
  rewrite (main_orchestrate _ _ _ _ _ read Hf He Hs Hss Hg).
  intros (j1 & j2 & j3 & j4 & p & H1 & H2 & H3 & H4 & Hp & ->)%orchestrate_Ok.
  apply getitem_columns_Ok in Hp as [_ ->]. simpl.
  pose proof (merge_no_rows _ _ _ _ _ H1) as E1.
  pose proof (merge_no_rows _ _ _ _ _ H2) as E2.
  pose proof (merge_no_rows _ _ _ _ _ H3) as E3.
  pose proof (merge_no_rows _ _ _ _ _ H4) as E4.
  assert (E : rows j4 = []) by tauto. by rewrite E.
Qed.

Lemma main_empty_table_witness :
  rows {| columns := subset_columns; rows := [] |} = [].
Proof.
  apply (main_empty_table Scenario.no_sector_rows
           Fixture.facility Fixture.emission
           {| columns := columns Fixture.sector; rows := [] |}
           Fixture.subsector Fixture.ghg
           {| columns := subset_columns; rows := [] |}).
  1-5: vm_compute; reflexivity.
  - right. right. left. reflexivity.
  - vm_compute. reflexivity.
Defined.

(** ** Tables whose labels carry their table's name *)

Lemma str_prefix_both (p q c : string) :
  String.prefix p c = true → String.prefix q c = true →
  String.prefix p q = true ∨ String.prefix q p = true.
Proof.
  revert q c. induction p as [|a p IH]; intros q c Hp Hq.
  - left. by destruct q.
  - destruct q as [|b q]; [right; done|].
    destruct c as [|x c]; [done|]. simpl in Hp, Hq |- *.
    destruct (Ascii.ascii_dec a x) as [->|]; [|done].
    destruct (Ascii.ascii_dec b x) as [->|]; [|done].
    destruct (Ascii.ascii_dec x x) as [_|]; [|done]. by apply (IH q c).
Qed.


Lemma namespaced_disjoint (p q : string) (l r : DataFrame) :
  namespaced p l → namespaced q r →
  String.prefix p q = false → String.prefix q p = false →
  ∀ c, c ∈ columns l → c ∉ columns r.
Proof.
  intros Hl Hr Hpq Hqp c Hcl Hcr. unfold namespaced in *.
  rewrite Forall_forall in Hl, Hr.
  destruct (str_prefix_both p q c (Hl c Hcl) (Hr c Hcr)); congruence.
Qed.

Section Chains.
Variables facility emission sector subsector ghg : DataFrame.
Hypothesis ns_facility : namespaced "PUB_DIM_FACILITY." facility.
Hypothesis ns_emission : namespaced "PUB_FACTS_SECTOR_GHG_EMISSION." emission.
Hypothesis ns_sector : namespaced "PUB_DIM_SECTOR." sector.
Hypothesis ns_subsector : namespaced "PUB_DIM_SUBSECTOR." subsector.
Hypothesis ns_ghg : namespaced "PUB_DIM_GHG." ghg.

Variables j1 j2 j3 j4 : DataFrame.
Hypothesis merge1 :
  merge facility emission
    ["PUB_DIM_FACILITY.FACILITY_ID"; "PUB_DIM_FACILITY.YEAR"]
    ["PUB_FACTS_SECTOR_GHG_EMISSION.FACILITY_ID"; "PUB_FACTS_SECTOR_GHG_EMISSION.YEAR"]
  = Ok j1.
Hypothesis merge2 :
  merge j1 sector ["PUB_FACTS_SECTOR_GHG_EMISSION.SECTOR_ID"]
    ["PUB_DIM_SECTOR.SECTOR_ID"] = Ok j2.
Hypothesis merge3 :
  merge j2 subsector ["PUB_FACTS_SECTOR_GHG_EMISSION.SUBSECTOR_ID"]
    ["PUB_DIM_SUBSECTOR.SUBSECTOR_ID"] = Ok j3.
Hypothesis merge4 :
  merge j3 ghg ["PUB_FACTS_SECTOR_GHG_EMISSION.GAS_ID"]
    ["PUB_DIM_GHG.GAS_ID"] = Ok j4.

Lemma disjoint1 : ∀ c, c ∈ columns facility → c ∉ columns emission.
Proof. by apply (namespaced_disjoint _ _ _ _ ns_facility ns_emission). Qed.

Lemma columns1 : columns j1 = columns facility ++ columns emission.
Proof. apply (merge_columns_disjoint _ _ _ _ _ merge1), disjoint1. Qed.

Lemma disjoint2 : ∀ c, c ∈ columns j1 → c ∉ columns sector.
Proof.
  intros c. rewrite columns1, elem_of_app. intros [Hc|Hc]; revert c Hc.
  - by apply (namespaced_disjoint _ _ _ _ ns_facility ns_sector).
  - by apply (namespaced_disjoint _ _ _ _ ns_emission ns_sector).
Qed.

Lemma columns2 : columns j2 = columns j1 ++ columns sector.
Proof. apply (merge_columns_disjoint _ _ _ _ _ merge2), disjoint2. Qed.

Lemma disjoint3 : ∀ c, c ∈ columns j2 → c ∉ columns subsector.
Proof.
  intros c. rewrite columns2, columns1, !elem_of_app.
  intros [[Hc|Hc]|Hc]; revert c Hc.
  - by apply (namespaced_disjoint _ _ _ _ ns_facility ns_subsector).
  - by apply (namespaced_disjoint _ _ _ _ ns_emission ns_subsector).
  - by apply (namespaced_disjoint _ _ _ _ ns_sector ns_subsector).
Qed.

Lemma columns3 : columns j3 = columns j2 ++ columns subsector.
Proof. apply (merge_columns_disjoint _ _ _ _ _ merge3), disjoint3. Qed.

Lemma disjoint4 : ∀ c, c ∈ columns j3 → c ∉ columns ghg.
Proof.
  intros c. rewrite columns3, columns2, columns1, !elem_of_app.
  intros [[[Hc|Hc]|Hc]|Hc]; revert c Hc.
  - by apply (namespaced_disjoint _ _ _ _ ns_facility ns_ghg).
  - by apply (namespaced_disjoint _ _ _ _ ns_emission ns_ghg).
  - by apply (namespaced_disjoint _ _ _ _ ns_sector ns_ghg).
  - by apply (namespaced_disjoint _ _ _ _ ns_subsector ns_ghg).
Qed.

Lemma columns4 : columns j4 = columns j3 ++ columns ghg.
Proof. apply (merge_columns_disjoint _ _ _ _ _ merge4), disjoint4. Qed.

(** The columns of the last merge: those of the five tables, in the order
    of the merges. *)
Lemma columns_all :
  columns j4 = (((columns facility ++ columns emission) ++ columns sector)
                 ++ columns subsector) ++ columns ghg.
Proof. by rewrite columns4, columns3, columns2, columns1. Qed.

Hypothesis rect_facility : rectangular facility.
Hypothesis rect_emission : rectangular emission.
Hypothesis rect_sector : rectangular sector.
Hypothesis rect_subsector : rectangular subsector.













(** The rows of the four merges, in terms of the rows of the tables. *)
Lemma rows1 (r : list value) :
  r ∈ rows j1 ↔
  ∃ f e, r = f ++ e ∧ f ∈ rows facility ∧ e ∈ rows emission
    ∧ cell_at facility "PUB_DIM_FACILITY.FACILITY_ID" f
        = cell_at emission "PUB_FACTS_SECTOR_GHG_EMISSION.FACILITY_ID" e
    ∧ cell_at facility "PUB_DIM_FACILITY.YEAR" f
        = cell_at emission "PUB_FACTS_SECTOR_GHG_EMISSION.YEAR" e.
Proof.
  rewrite (merge_rows _ _ _ _ _ merge1).
  split; intros (f & e & -> & Hf & He & Hk); exists f, e; repeat split; try done.
  - by apply Forall2_cons_1 in Hk as [? _].
  - apply Forall2_cons_1 in Hk as [_ Hk]. by apply Forall2_cons_1 in Hk as [? _].
  - destruct Hk as [? ?]. by repeat constructor.
Qed.

Lemma rows2 (r : list value) :
  r ∈ rows j2 ↔
  ∃ r1 s, r = r1 ++ s ∧ r1 ∈ rows j1 ∧ s ∈ rows sector
    ∧ cell_at j1 "PUB_FACTS_SECTOR_GHG_EMISSION.SECTOR_ID" r1
        = cell_at sector "PUB_DIM_SECTOR.SECTOR_ID" s.
Proof.
  rewrite (merge_rows _ _ _ _ _ merge2).
  split; intros (r1 & s & -> & Hr & Hs & Hk); exists r1, s; repeat split; try done.
  - by apply Forall2_cons_1 in Hk as [? _].
  - by repeat constructor.
Qed.






End Chains.












